(** * The dashboard store and its data gateway

    A shallow embedding of [src/store/dashboardStore.ts] (the zustand store
    [useDashboardStore]), of the gateway [dashboardApi] it calls, and of the
    mock data of [src/data/mockData.ts].

    The two store actions are [async] functions with a single [await].  An
    async function is embedded as a [task]: a tree of the effects it performs
    (reads and partial writes of the store, [console.error], awaiting one of
    the two gateway calls), whose continuations are the code after the
    [await].  [run] executes a task up to its next [await]; the event loop
    [step] keeps the suspended calls and resumes one when its gateway promise
    settles.  Simulated delays only order the settlements and are not
    modelled otherwise. *)

From Stdlib Require Import QArith.
From stdpp Require Import base option list strings.

Local Open Scope string_scope.
Local Open Scope Z_scope.

(** ** Data model ([src/types/index.ts]) *)

(** A [string] is embedded as the bytes of its text: the store only compares
    identifiers with [===], which is equality of the two texts.  The
    [number] fields hold integers and are never computed with. *)

Inductive Category : Set := discount | voucher | cashback | exclusive.
Inductive Trend : Set := up | down | stable.

#[global] Instance Category_eq_dec : EqDecision Category.
Proof. solve_decision. Defined.
#[global] Instance Trend_eq_dec : EqDecision Trend.
Proof. solve_decision. Defined.

Module User.
Record t : Set := mk {
    id : string;
    name : string;
    email : string;
    avatar : string;
    level : Z;
    currentXP : Z;
    targetXP : Z;
    title : string;
    memberSince : string
  }.
End User.

Module Benefit.
Record t : Set := mk {
    id : string;
    title : string;
    description : string;
    icon : string;
    value : string;
    category : Category;
    claimed : bool;
    expiresAt : string;
    terms : option string      (* [terms?: string] *)
  }.
End Benefit.

Module RewardPoints.
Record t : Set := mk {
    current : Z;
    total : Z;
    thisMonth : Z;
    lastMonth : Z;
    trend : Trend;
    nextMilestone : Z
  }.
End RewardPoints.

#[global] Instance User_eq_dec : EqDecision User.t.
Proof. solve_decision. Defined.
#[global] Instance Benefit_eq_dec : EqDecision Benefit.t.
Proof. solve_decision. Defined.
#[global] Instance RewardPoints_eq_dec : EqDecision RewardPoints.t.
Proof. solve_decision. Defined.

(** What the gateway returns: [interface DashboardData]. *)
Module DashboardData.
Record t : Set := mk {
    user : User.t;
    benefits : list Benefit.t;
    rewardPoints : RewardPoints.t;
    isLoading : bool
  }.
End DashboardData.

(** The data fields of the store.  [user] and [rewardPoints] start as
    [null as any], hence the options. *)
Record DashboardStore : Set := mkStore {
  user : option User.t;
  benefits : list Benefit.t;
  rewardPoints : option RewardPoints.t;
  isLoading : bool
}.

#[global] Instance DashboardStore_eq_dec : EqDecision DashboardStore.
Proof. solve_decision. Defined.

(** ** Promises, zustand's [set], and async functions as tasks *)

(** The value a rejected promise carries. *)
Definition error : Set := string.

(** How an awaited gateway promise settles. *)
Inductive outcome (A : Type) : Type :=
| Fulfilled (a : A)
| Rejected (e : error).
Arguments Fulfilled {A} a.
Arguments Rejected {A} e.

#[global] Instance outcome_eq_dec {A : Type} `{EqDecision A} : EqDecision (outcome A).
Proof. solve_decision. Defined.

(** The argument of zustand's [set]: the fields present in the object. *)
Record Partial : Set := mkPartial {
  set_user : option (option User.t);
  set_benefits : option (list Benefit.t);
  set_rewardPoints : option (option RewardPoints.t);
  set_isLoading : option bool
}.

(** [set(partial)] merges shallowly: a field present in [partial] replaces
    the store's, an absent one is kept. *)
Definition merge (partial : Partial) (state : DashboardStore) : DashboardStore :=
  {| user := default (user state) (set_user partial);
     benefits := default (benefits state) (set_benefits partial);
     rewardPoints := default (rewardPoints state) (set_rewardPoints partial);
     isLoading := default (isLoading state) (set_isLoading partial) |}.

(** The body of an async store action. *)
Inductive task : Type :=
| Return                                           (* the body ends: its promise fulfils *)
| Throw (e : error)                                (* an uncaught exception: its promise rejects *)
| SetState (partial : Partial) (k : task)          (* [set(partial)] *)
| GetState (k : DashboardStore -> task)            (* [get()] *)
| ConsoleError (msg : string) (e : error) (k : task)
| AwaitGetDashboardData (k : outcome DashboardData.t -> task)
| AwaitClaimBenefit (benefitId : string) (k : outcome bool -> task).

(** A call suspended at its [await], with the rest of its body. *)
Inductive pending : Type :=
| PendingGetDashboardData (k : outcome DashboardData.t -> task)
| PendingClaimBenefit (benefitId : string) (k : outcome bool -> task).

(** How the promise of a finished call settled. *)
Inductive completion : Set :=
| Returned
| Threw (e : error).

Inductive status : Type :=
| Finished (c : completion)
| Suspended (p : pending).

(** The store together with what was written to the console. *)
Record world : Set := mkWorld {
  state : DashboardStore;
  console : list (string * error)
}.

(** Runs a task until it ends or reaches an [await]. *)
Fixpoint run (t : task) (w : world) : world * status :=
  match t with
  | Return => (w, Finished Returned)
  | Throw e => (w, Finished (Threw e))
  | SetState partial k => run k (mkWorld (merge partial (state w)) (console w))
  | GetState k => run (k (state w)) w
  | ConsoleError msg e k => run k (mkWorld (state w) (console w ++ [(msg, e)]))
  | AwaitGetDashboardData k => (w, Suspended (PendingGetDashboardData k))
  | AwaitClaimBenefit benefitId k => (w, Suspended (PendingClaimBenefit benefitId k))
  end.

(** ** The store ([src/store/dashboardStore.ts]) *)

(** [{ isLoading: loading }] *)
Definition only_isLoading (loading : bool) : Partial :=
  {| set_user := None; set_benefits := None; set_rewardPoints := None;
     set_isLoading := Some loading |}.

(** [{ benefits }] *)
Definition only_benefits (benefits : list Benefit.t) : Partial :=
  {| set_user := None; set_benefits := Some benefits; set_rewardPoints := None;
     set_isLoading := None |}.

(** [{ ...data, isLoading: loading }] *)
Definition spread_with_isLoading (data : DashboardData.t) (loading : bool) : Partial :=
  {| set_user := Some (Some (DashboardData.user data));
     set_benefits := Some (DashboardData.benefits data);
     set_rewardPoints := Some (Some (DashboardData.rewardPoints data));
     set_isLoading := Some loading |}.

(** [{ ...benefit, claimed: true }] *)
Definition with_claimed_true (benefit : Benefit.t) : Benefit.t :=
  {| Benefit.id := Benefit.id benefit;
     Benefit.title := Benefit.title benefit;
     Benefit.description := Benefit.description benefit;
     Benefit.icon := Benefit.icon benefit;
     Benefit.value := Benefit.value benefit;
     Benefit.category := Benefit.category benefit;
     Benefit.claimed := true;
     Benefit.expiresAt := Benefit.expiresAt benefit;
     Benefit.terms := Benefit.terms benefit |}.

Module useDashboardStore.

(** Initial state - null values will be populated on load. *)
Definition initial : DashboardStore :=
    {| user := None; benefits := []; rewardPoints := None; isLoading := true |}.

Definition loadDashboardData : task :=
    SetState (only_isLoading true)
      (AwaitGetDashboardData (fun settled =>
         match settled with
         | Fulfilled data =>
             SetState (spread_with_isLoading data false) Return
         | Rejected error =>                                  (* catch (error) *)
             ConsoleError "Failed to load dashboard data:" error
               (SetState (only_isLoading false) Return)
         end)).

(** The callback of [get().benefits.map(...)]. *)
Definition mark (benefitId : string) (benefit : Benefit.t) : Benefit.t :=
    if decide (Benefit.id benefit = benefitId) then with_claimed_true benefit else benefit.

Definition claimBenefit (benefitId : string) : task :=
    AwaitClaimBenefit benefitId (fun settled =>
      match settled with
      | Fulfilled success =>
          if success then
            GetState (fun current =>
              let benefits := map (mark benefitId) (benefits current) in
              SetState (only_benefits benefits) Return)
          else Return
      | Rejected error =>                                     (* catch (error) *)
          ConsoleError "Failed to claim benefit:" error Return
      end).

Definition setLoading (loading : bool) : task :=
    SetState (only_isLoading loading) Return.

End useDashboardStore.

(** ** The event loop *)

(** The calls made so far are numbered from 0; slot [h] of [inflight] holds
    the suspended body of call [h] until it finishes, and [settled] records
    how each finished call's promise settled. *)
Record loop : Type := mkLoop {
  now : world;
  inflight : list (option pending);
  settled : list (nat * completion)
}.

Inductive event : Type :=
| Call (body : task)                                       (* a consumer invokes an action *)
| SettleGetDashboardData (h : nat) (r : outcome DashboardData.t)
| SettleClaimBenefit (h : nat) (r : outcome bool).

Definition start (w : world) : loop :=
  {| now := w; inflight := []; settled := [] |}.

(** Continues call [h] with [body] and files the result. *)
Definition continue (h : nat) (body : task) (l : loop) : loop :=
  match run body (now l) with
  | (w, Finished c) =>
      {| now := w; inflight := <[h := None]> (inflight l);
         settled := settled l ++ [(h, c)] |}
  | (w, Suspended p) =>
      {| now := w; inflight := <[h := Some p]> (inflight l); settled := settled l |}
  end.

Definition step (e : event) (l : loop) : option loop :=
  match e with
  | Call body =>
      Some (continue (length (inflight l)) body
              {| now := now l; inflight := inflight l ++ [None]; settled := settled l |})
  | SettleGetDashboardData h r =>
      match inflight l !! h with
      | Some (Some (PendingGetDashboardData k)) => Some (continue h (k r) l)
      | _ => None
      end
  | SettleClaimBenefit h r =>
      match inflight l !! h with
      | Some (Some (PendingClaimBenefit _ k)) => Some (continue h (k r) l)
      | _ => None
      end
  end.

Fixpoint exec (es : list event) (l : loop) : option loop :=
  match es with
  | [] => Some l
  | e :: es' =>
      match step e l with
      | Some l' => exec es' l'
      | None => None
      end
  end.

(** A call made and awaited with nothing else in between: the body runs to
    its [await], the gateway promise settles, and the rest runs. *)
Definition call_load (r : outcome DashboardData.t) (w : world) : option loop :=
  exec [Call useDashboardStore.loadDashboardData; SettleGetDashboardData 0 r] (start w).

Definition call_claim (benefitId : string) (r : outcome bool) (w : world) : option loop :=
  exec [Call (useDashboardStore.claimBenefit benefitId); SettleClaimBenefit 0 r] (start w).

(** ** Mock data ([src/data/mockData.ts]) *)

Definition mockUser : User.t :=
  {| User.id := "1";
     User.name := "Arjun Mehta";
     User.email := "arjun.mehta@example.com";
     User.avatar := "https://images.pexels.com/photos/2379004/pexels-photo-2379004.jpeg?auto=compress&cs=tinysrgb&w=150&h=150&dpr=2";
     User.level := 7;
     User.currentXP := 2840;
     User.targetXP := 3500;
     User.title := "Gold Member";
     User.memberSince := "2022-03-15" |}.

Definition mockBenefits : list Benefit.t :=
  [ {| Benefit.id := "1";
       Benefit.title := "20% Off Premium Dining";
       Benefit.description := "Exclusive discount at top restaurants across Mumbai and Delhi";
       Benefit.icon := "utensils";
       Benefit.value := "₹2,500";
       Benefit.category := discount;
       Benefit.claimed := false;
       Benefit.expiresAt := "2024-02-28";
       Benefit.terms := Some "Valid only on weekdays. Minimum order ₹1000." |};
    {| Benefit.id := "2";
       Benefit.title := "Netflix Premium Voucher";
       Benefit.description := "3 months free Netflix subscription worth ₹2,397";
       Benefit.icon := "tv";
       Benefit.value := "₹2,397";
       Benefit.category := voucher;
       Benefit.claimed := false;
       Benefit.expiresAt := "2024-01-31";
       Benefit.terms := None |};
    {| Benefit.id := "3";
       Benefit.title := "5% Cashback on Fuel";
       Benefit.description := "Get cashback on fuel payments across all major petrol pumps";
       Benefit.icon := "fuel";
       Benefit.value := "5%";
       Benefit.category := cashback;
       Benefit.claimed := true;
       Benefit.expiresAt := "2024-03-31";
       Benefit.terms := None |};
    {| Benefit.id := "4";
       Benefit.title := "Airport Lounge Access";
       Benefit.description := "Complimentary access to premium airport lounges";
       Benefit.icon := "plane";
       Benefit.value := "Free";
       Benefit.category := exclusive;
       Benefit.claimed := false;
       Benefit.expiresAt := "2024-12-31";
       Benefit.terms := None |};
    {| Benefit.id := "5";
       Benefit.title := "Swiggy Super Membership";
       Benefit.description := "6 months of free delivery and exclusive discounts";
       Benefit.icon := "bike";
       Benefit.value := "₹899";
       Benefit.category := voucher;
       Benefit.claimed := false;
       Benefit.expiresAt := "2024-02-15";
       Benefit.terms := None |};
    {| Benefit.id := "6";
       Benefit.title := "Myntra Fashion Voucher";
       Benefit.description := "₹1000 shopping voucher for fashion and lifestyle";
       Benefit.icon := "shopping-bag";
       Benefit.value := "₹1,000";
       Benefit.category := voucher;
       Benefit.claimed := false;
       Benefit.expiresAt := "2024-01-30";
       Benefit.terms := None |} ].

Definition mockRewardPoints : RewardPoints.t :=
  {| RewardPoints.current := 15420;
     RewardPoints.total := 47890;
     RewardPoints.thisMonth := 2840;
     RewardPoints.lastMonth := 3120;
     RewardPoints.trend := down;
     RewardPoints.nextMilestone := 20000 |}.

(** ** The gateway ([dashboardApi], imported from [@/services/api]) *)

(** A [number] is a binary64 value; a finite one is embedded as the rational
    it denotes, so that comparing two numbers is comparing the rationals. *)

(** [x > y] on numbers. *)
Definition Qgtb (x y : Q) : bool := negb (Qle_bool x y).

(** The number the literal [0.1] denotes: the binary64 value nearest to one
    tenth, 3602879701896397 / 2^55. *)
Definition binary64_0_1 : Q := (3602879701896397 # 36028797018963968)%Q.

Module dashboardApi.

(** [await delay(1500)], then the aggregated mock data. *)
Definition getDashboardData : outcome DashboardData.t :=
  Fulfilled {| DashboardData.user := mockUser;
               DashboardData.benefits := mockBenefits;
               DashboardData.rewardPoints := mockRewardPoints;
               DashboardData.isLoading := false |}.

(** [await delay(800)], then [Math.random() > 0.1]; [random] is the value
    [Math.random()] returns in this call. *)
Definition claimBenefit (benefitId : string) (random : Q) : outcome bool :=
  Fulfilled (Qgtb random binary64_0_1).

End dashboardApi.

(** ** Vocabulary of the properties *)

(** The loop a lone call ends in: one slot, emptied, and one settled promise. *)
Definition finished_in (w : world) (c : completion) : loop :=
  {| now := w; inflight := [None]; settled := [(0%nat, c)] |}.

(** [b'] agrees with [b] on every field other than [claimed]. *)
Definition same_but_claimed (b b' : Benefit.t) : Prop :=
  Benefit.id b' = Benefit.id b /\
  Benefit.title b' = Benefit.title b /\
  Benefit.description b' = Benefit.description b /\
  Benefit.icon b' = Benefit.icon b /\
  Benefit.value b' = Benefit.value b /\
  Benefit.category b' = Benefit.category b /\
  Benefit.expiresAt b' = Benefit.expiresAt b /\
  Benefit.terms b' = Benefit.terms b.

(** The store after the mock data was loaded. *)
Definition loaded : DashboardStore :=
  {| user := Some mockUser; benefits := mockBenefits;
     rewardPoints := Some mockRewardPoints; isLoading := false |}.

(** How a claim fails: the gateway resolves [false], or its promise rejects. *)
Definition failed (r : outcome bool) : Prop :=
  r = Fulfilled false \/ exists e, r = Rejected e.

(** The entries of a collection with identifier [benefitId]. *)
Definition matching (benefitId : string) (l : list Benefit.t) : list Benefit.t :=
  filter (fun b => Benefit.id b = benefitId) l.

(** A collection in which the identifiers "1" to "6" each occur twice. *)
Definition doubled : DashboardStore :=
  {| user := Some mockUser; benefits := mockBenefits ++ mockBenefits;
     rewardPoints := Some mockRewardPoints; isLoading := false |}.

(** The store after [data] was received and then [benefitId] claimed in it. *)
Definition loaded_then_claimed (data : DashboardData.t) (benefitId : string) : DashboardStore :=
  {| user := Some (DashboardData.user data);
     benefits := map (useDashboardStore.mark benefitId) (DashboardData.benefits data);
     rewardPoints := Some (DashboardData.rewardPoints data);
     isLoading := false |}.

(** [after] is [before] with the entries of identifier [benefitId] claimed:
    the same length and, position by position, an entry with the identifier
    has [claimed = true] and its other fields as before, and an entry with
    another identifier is the entry that was there. *)
Definition claimed_in (benefitId : string) (before after : list Benefit.t) : Prop :=
  length after = length before /\
  forall (i : nat) (b : Benefit.t), before !! i = Some b ->
    exists b', after !! i = Some b' /\
      same_but_claimed b b' /\
      (Benefit.id b = benefitId -> Benefit.claimed b' = true) /\
      (Benefit.id b <> benefitId -> b' = b).

(** The draw [k / 2^53]: the common engines draw [Math.random()] among the
    multiples of 2^-53 in [0,1). *)
Definition draw_53 (k : Z) : Q := (k # 9007199254740992)%Q.

(** Under the uniform distribution on [0,1), the probability that the draw
    falls between [lo] and [hi], for [0 <= lo <= hi <= 1], is the length of
    that interval. *)
Definition uniform_probability (lo hi : Q) : Q := (hi - lo)%Q.

(** The [10 * n] equally spaced draws of [0,1): [k / (10 * n)] for
    [k < 10 * n]. *)
Definition grid_draw (n : positive) (k : nat) : Q := (Z.of_nat k # (10 * n))%Q.

(** The draws of the grid for which the gateway resolves [true]. *)
Definition successful_draws (benefitId : string) (n : positive) : list nat :=
  filter (fun k => dashboardApi.claimBenefit benefitId (grid_draw n k) = Fulfilled true)
         (seq 0 (10 * Pos.to_nat n)).

(** ** The benefits grid ([BenefitsSection], [BenefitCard]) *)

(** What a [BenefitCard] shows of its benefit and does on a click: the
    button is [disabled={benefit.claimed}] and its handler is
    [() => onClaim(benefit.id)]; a disabled button fires no click. *)
Record Card : Set := mkCard {
  card_benefit : Benefit.t;
  card_index : nat;
  button_disabled : bool;
  button_label : string;
  on_click : string                 (* the argument [onClaim] is called with *)
}.

Definition BenefitCard (benefit : Benefit.t) (index : nat) : Card :=
  {| card_benefit := benefit;
     card_index := index;
     button_disabled := Benefit.claimed benefit;
     button_label := if Benefit.claimed benefit then "Claimed" else "Claim Now";
     on_click := Benefit.id benefit |}.

(** What [BenefitsSection] renders: the count in its header, the grid of the
    available benefits, and the "Recently Claimed" grid, which is rendered only
    when [claimedBenefits.length > 0]. *)
Record BenefitsSectionView : Set := mkBenefitsSectionView {
  waiting : nat;
  available_grid : list Card;
  claimed_grid : option (list Card)
}.

Definition BenefitsSection (benefits : list Benefit.t) : BenefitsSectionView :=
  let availableBenefits := filter (fun b => negb (Benefit.claimed b)) benefits in
  let claimedBenefits := filter (fun b => Benefit.claimed b) benefits in
  {| waiting := length availableBenefits;
     available_grid := imap (fun index benefit => BenefitCard benefit index) availableBenefits;
     claimed_grid :=
       if decide (0 < length claimedBenefits)%nat
       then Some (imap (fun index benefit => BenefitCard benefit index) claimedBenefits)
       else None |}.

(** All the cards of the section, in the order they are rendered. *)
Definition cards (v : BenefitsSectionView) : list Card :=
  (available_grid v ++ default [] (claimed_grid v))%list.

(** The identifiers a click in the section can hand to [onClaim]: those of
    the cards whose button is not disabled. *)
Definition clicks (v : BenefitsSectionView) : list string :=
  on_click <$> filter (fun c => negb (button_disabled c)) (cards v).

(** ** The dashboard ([Dashboard.tsx]) *)

(** The argument of [toast]. *)
Record Toast : Set := mkToast {
  toast_title : string;
  toast_description : string;
  toast_variant : option string
}.

(** How the promise of call [h] settled, once it has. *)
Definition settlement (h : nat) (l : loop) : option completion :=
  snd <$> head (filter (fun hc => hc.1 = h) (settled l)).

(** [handleClaimBenefit]: awaits the store's [claimBenefit(benefitId)] inside
    a [try]; the toast after the [await] is shown when that promise fulfils,
    the one of the [catch] block when it rejects.  [gateway] is how the
    gateway promise settles during the call. *)
Definition handleClaimBenefit (benefitId : string) (gateway : outcome bool) (w : world)
  : option (world * Toast) :=
  match call_claim benefitId gateway w with
  | Some l =>
      match settlement 0 l with
      | Some Returned =>
          Some (now l,
                {| toast_title := "Benefit Claimed!";
                   toast_description := "Your benefit has been successfully claimed.";
                   toast_variant := None |})
      | Some (Threw _) =>
          Some (now l,
                {| toast_title := "Error";
                   toast_description := "Failed to claim benefit. Please try again.";
                   toast_variant := Some "destructive" |})
      | None => None
      end
  | None => None
  end.

(** The three sections of the page: each is a skeleton while [isLoading],
    and the component with its data from the store otherwise. *)
Inductive element : Set :=
| UserProfileSkeleton
| UserProfile (user : option User.t)
| RewardProgressSkeleton
| RewardProgress (rewardPoints : option RewardPoints.t)
| BenefitsSkeleton
| BenefitsSectionOf (benefits : list Benefit.t).

Definition Dashboard (st : DashboardStore) : list element :=
  [ if isLoading st then UserProfileSkeleton else UserProfile (user st);
    if isLoading st then RewardProgressSkeleton else RewardProgress (rewardPoints st);
    if isLoading st then BenefitsSkeleton else BenefitsSectionOf (benefits st) ].

(** Whether rendering the element throws a [TypeError]: [UserProfile] reads
    [user.currentXP] and [RewardProgress] reads [rewardPoints.current] in
    their first statement, which throws on [null]. *)
Definition throws (e : element) : bool :=
  match e with
  | UserProfile None => true
  | RewardProgress None => true
  | _ => false
  end.

(** ** The avatar fallback of [UserProfile] *)

(** [user.name.split(' ').map(n => n[0]).join('')], on texts as sequences of
    code units [A]. *)
Section Initials.
Context {A : Type} `{EqDecision A}.

(** [s.split(sep)] for a separator of one code unit. *)
Fixpoint split (sep : A) (s : list A) : list (list A) :=
  match s with
  | [] => [[]]
  | c :: s' =>
      if decide (c = sep) then [] :: split sep s'
      else match split sep s' with
           | piece :: pieces => (c :: piece) :: pieces
           | [] => [[c]]
           end
  end.

(** [n[0]] as [join] prints it: the first code unit, and nothing for the
    [undefined] that the empty text gives. *)
Definition first_unit (n : list A) : list A := take 1 n.

Definition initials (space : A) (name : list A) : list A :=
  concat (map first_unit (split space name)).

End Initials.

(** ** Traces of store actions *)

(** The three actions a consumer of the store can call. *)
Inductive store_action : task -> Prop :=
| action_loadDashboardData : store_action useDashboardStore.loadDashboardData
| action_claimBenefit (benefitId : string) :
    store_action (useDashboardStore.claimBenefit benefitId)
| action_setLoading (loading : bool) :
    store_action (useDashboardStore.setLoading loading).

(** The actions other than [loadDashboardData]. *)
Inductive claim_action : task -> Prop :=
| claim_action_claimBenefit (benefitId : string) :
    claim_action (useDashboardStore.claimBenefit benefitId)
| claim_action_setLoading (loading : bool) :
    claim_action (useDashboardStore.setLoading loading).

(** The events of a trace call only bodies of [allowed]. *)
Definition calls_only (allowed : task -> Prop) (es : list event) : Prop :=
  Forall (fun e => match e with Call body => allowed body | _ => True end) es.

(** [p] is where an action of [allowed] suspends. *)
Definition suspension_of (allowed : task -> Prop) (p : pending) : Prop :=
  exists body w, allowed body /\ (run body w).2 = Suspended p.

(** Both nullable fields of the store hold data. *)
Definition populated (st : DashboardStore) : Prop :=
  is_Some (user st) /\ is_Some (rewardPoints st).

(** [st'] holds the benefits of [st], position by position, except that
    [claimed] may have turned from [false] to [true]; [user] and
    [rewardPoints] are the same. *)
Definition only_claimed_more (st st' : DashboardStore) : Prop :=
  user st' = user st /\
  rewardPoints st' = rewardPoints st /\
  Forall2 (fun b b' => same_but_claimed b b' /\
                       (Benefit.claimed b = true -> Benefit.claimed b' = true))
          (benefits st) (benefits st').

(** What holds of a loop along a trace that calls only actions of
    [allowed]: the world satisfies [I], every suspended call is an action of
    [allowed] at its [await], and every promise settled so far fulfilled. *)
Definition trace_invariant (allowed : task -> Prop) (I : world -> Prop) (l : loop) : Prop :=
  I (now l) /\
  Forall (fun slot => match slot with
                      | Some p => suspension_of allowed p
                      | None => True
                      end) (inflight l) /\
  Forall (fun hc => hc.2 = Returned) (settled l).

(** The result of running a piece of an action keeps the invariant. *)
Definition keeps (allowed : task -> Prop) (I : world -> Prop) (r : world * status) : Prop :=
  I r.1 /\
  match r.2 with
  | Finished c => c = Returned
  | Suspended p => suspension_of allowed p
  end.

(** Three traces from the loaded store: both gateway promises reject; a
    reload fails while a claim is in flight; two claims resolve in the
    reverse order of their calls. *)
Definition trace_both_reject : list event :=
  [Call useDashboardStore.loadDashboardData;
   Call (useDashboardStore.claimBenefit "1");
   Call (useDashboardStore.setLoading false);
   SettleClaimBenefit 1 (Rejected "timeout");
   SettleGetDashboardData 0 (Rejected "offline")].

Definition trace_failed_reload : list event :=
  [Call (useDashboardStore.claimBenefit "2");
   Call useDashboardStore.loadDashboardData;
   SettleGetDashboardData 1 (Rejected "offline");
   SettleClaimBenefit 0 (Fulfilled true)].

Definition trace_two_claims : list event :=
  [Call (useDashboardStore.claimBenefit "1");
   Call (useDashboardStore.claimBenefit "3");
   Call (useDashboardStore.setLoading true);
   SettleClaimBenefit 1 (Fulfilled true);
   SettleClaimBenefit 0 (Fulfilled true)].

(** * Properties *)

(** ** The mapping callback of [claimBenefit] *)

Section Mark.
Import useDashboardStore.
Variable benefitId : string.

Lemma mark_same (b : Benefit.t) :
  Benefit.id b = benefitId -> mark benefitId b = with_claimed_true b.
Proof. intros Hid. unfold mark. by rewrite decide_True. Qed.

Lemma mark_other (b : Benefit.t) :
  Benefit.id b <> benefitId -> mark benefitId b = b.
Proof. intros Hid. unfold mark. by rewrite decide_False. Qed.

Lemma mark_id (b : Benefit.t) : Benefit.id (mark benefitId b) = Benefit.id b.
Proof. unfold mark. by case_decide. Qed.

Lemma with_claimed_true_claimed (b : Benefit.t) :
  Benefit.claimed b = true -> with_claimed_true b = b.
Proof. destruct b; simpl; intros ->; reflexivity. Qed.

Lemma mark_idemp (b : Benefit.t) :
  mark benefitId (mark benefitId b) = mark benefitId b.
Proof.
  destruct (decide (Benefit.id b = benefitId)) as [Hid|Hid].
  - rewrite (mark_same b Hid), mark_same by done.
    by apply with_claimed_true_claimed.
  - by rewrite !(mark_other b Hid).
Qed.

Lemma lookup_map_mark (l : list Benefit.t) (i : nat) :
  map (mark benefitId) l !! i = mark benefitId <$> l !! i.
Proof. apply (list_lookup_fmap (mark benefitId)). Qed.

Lemma map_mark_idemp (l : list Benefit.t) :
  map (mark benefitId) (map (mark benefitId) l) = map (mark benefitId) l.
Proof.
  induction l as [|b l IH]; simpl; [done|].
  by rewrite mark_idemp, IH.
Qed.

Lemma map_mark_ids (l : list Benefit.t) :
  Benefit.id <$> map (mark benefitId) l = Benefit.id <$> l.
Proof.
  induction l as [|b l IH]; [done|].
  simpl map. by rewrite !fmap_cons, mark_id, IH.
Qed.

Lemma map_mark_absent (l : list Benefit.t) :
  benefitId ∉ Benefit.id <$> l -> map (mark benefitId) l = l.
Proof.
  induction l as [|b l IH]; [done|].
  rewrite fmap_cons, not_elem_of_cons. intros [Hb Hl].
  simpl map. rewrite mark_other by done. by rewrite IH.
Qed.

End Mark.

(** ** A call awaited with nothing in between *)

Lemma call_claim_true (benefitId : string) (w : world) :
  call_claim benefitId (Fulfilled true) w =
  Some (finished_in
          (mkWorld
             (merge (only_benefits (map (useDashboardStore.mark benefitId) (benefits (state w))))
                    (state w))
             (console w))
          Returned).
Proof. reflexivity. Qed.

Lemma call_claim_false (benefitId : string) (w : world) :
  call_claim benefitId (Fulfilled false) w = Some (finished_in w Returned).
Proof. reflexivity. Qed.

Lemma call_claim_rejected (benefitId : string) (e : error) (w : world) :
  call_claim benefitId (Rejected e) w =
  Some (finished_in (mkWorld (state w) (console w ++ [("Failed to claim benefit:", e)]))
                    Returned).
Proof. reflexivity. Qed.

Lemma call_load_fulfilled (data : DashboardData.t) (w : world) :
  call_load (Fulfilled data) w =
  Some (finished_in
          (mkWorld (merge (spread_with_isLoading data false)
                          (merge (only_isLoading true) (state w)))
                   (console w))
          Returned).
Proof. reflexivity. Qed.

Lemma call_load_rejected (e : error) (w : world) :
  call_load (Rejected e) w =
  Some (finished_in
          (mkWorld (merge (only_isLoading false) (merge (only_isLoading true) (state w)))
                   (console w ++ [("Failed to load dashboard data:", e)]))
          Returned).
Proof. reflexivity. Qed.

(** ** Claiming a benefit *)

Lemma same_but_claimed_mark (benefitId : string) (b : Benefit.t) :
  same_but_claimed b (useDashboardStore.mark benefitId b).
Proof. unfold useDashboardStore.mark. case_decide; repeat split. Qed.

(** C1. For every store and every identifier, [claimBenefit(id)] with the
    gateway resolving [true] finishes without throwing and leaves a benefits
    collection of the same length in which, position by position, an entry
    whose identifier is [id] has [claimed = true] and all its other fields as
    before, and an entry with another identifier is the entry that was there. *)
Theorem claim_success_flips_addressed_entry (w : world) (benefitId : string) :
  exists l, call_claim benefitId (Fulfilled true) w = Some l /\
    settled l = [(0%nat, Returned)] /\
    length (benefits (state (now l))) = length (benefits (state w)) /\
    forall (i : nat) (b : Benefit.t), benefits (state w) !! i = Some b ->
      exists b', benefits (state (now l)) !! i = Some b' /\
        same_but_claimed b b' /\
        (Benefit.id b = benefitId -> Benefit.claimed b' = true) /\
        (Benefit.id b <> benefitId -> b' = b).
Proof.
  rewrite call_claim_true. eexists; split; [reflexivity|]. simpl.
  split; [done|]. split; [apply length_map|].
  intros i b Hb. exists (useDashboardStore.mark benefitId b).
  rewrite lookup_map_mark, Hb. split; [done|].
  split; [apply same_but_claimed_mark|]. split; intros Hid.
  - by rewrite mark_same.
  - by apply mark_other.
Qed.

Lemma claim_success_flips_addressed_entry_witness :
  exists l, call_claim "1" (Fulfilled true) (mkWorld loaded []) = Some l /\
    (exists b', benefits (state (now l)) !! 0%nat = Some b' /\ Benefit.claimed b' = true) /\
    benefits (state (now l)) !! 1%nat = mockBenefits !! 1%nat.
Proof.
  destruct (claim_success_flips_addressed_entry (mkWorld loaded []) "1")
    as (l & Hl & _ & _ & Hentries).
  exists l. split; [exact Hl|]. split.
  - destruct (Hentries 0%nat _ eq_refl) as (b' & Hb' & _ & Hclaimed & _).
    exists b'. split; [exact Hb'|]. apply Hclaimed. reflexivity.
  - destruct (Hentries 1%nat _ eq_refl) as (b' & Hb' & _ & _ & Hsame).
    rewrite Hb', Hsame; [reflexivity|discriminate].
Defined.

(** C4. When the gateway resolves [false] for [claimBenefit(id)], or its
    promise rejects, the call finishes without throwing and the whole store
    state (user, benefits, rewardPoints, isLoading) is what it was. *)
Theorem claim_failure_keeps_state (w : world) (benefitId : string) (r : outcome bool)
    (Hfailed : failed r) :
  exists l, call_claim benefitId r w = Some l /\
    settled l = [(0%nat, Returned)] /\
    state (now l) = state w.
Proof.
  destruct Hfailed as [->|[e ->]].
  - rewrite call_claim_false. by eexists.
  - rewrite call_claim_rejected. by eexists.
Qed.

Lemma claim_failure_keeps_state_witness :
  (exists l, call_claim "1" (Fulfilled false) (mkWorld loaded []) = Some l /\
     settled l = [(0%nat, Returned)] /\ state (now l) = loaded) /\
  (exists l, call_claim "1" (Rejected "network down") (mkWorld loaded []) = Some l /\
     settled l = [(0%nat, Returned)] /\ state (now l) = loaded).
Proof.
  split.
  - apply (claim_failure_keeps_state (mkWorld loaded []) "1" (Fulfilled false)).
    left. reflexivity.
  - apply (claim_failure_keeps_state (mkWorld loaded []) "1" (Rejected "network down")).
    right. exists "network down". reflexivity.
Defined.

(** C5. When no entry of the collection has the identifier [id], the call
    [claimBenefit(id)] finishes without throwing and leaves the collection
    equal to what it was, however the gateway promise settles. *)
Theorem claim_unknown_id_keeps_collection (w : world) (benefitId : string)
    (r : outcome bool)
    (Habsent : benefitId ∉ Benefit.id <$> benefits (state w)) :
  exists l, call_claim benefitId r w = Some l /\
    settled l = [(0%nat, Returned)] /\
    benefits (state (now l)) = benefits (state w).
Proof.
  destruct r as [[|]|e].
  - rewrite call_claim_true. eexists; split; [reflexivity|]. simpl.
    split; [done|]. by apply map_mark_absent.
  - rewrite call_claim_false. by eexists.
  - rewrite call_claim_rejected. by eexists.
Qed.

Lemma claim_unknown_id_keeps_collection_witness :
  exists l, call_claim "7" (Fulfilled true) (mkWorld loaded []) = Some l /\
    settled l = [(0%nat, Returned)] /\
    benefits (state (now l)) = mockBenefits.
Proof.
  apply (claim_unknown_id_keeps_collection (mkWorld loaded []) "7" (Fulfilled true)).
  apply (bool_decide_unpack _). vm_compute. exact I.
Defined.

Lemma elem_of_map_mark_claimed (benefitId : string) (l : list Benefit.t) (b : Benefit.t) :
  b ∈ map (useDashboardStore.mark benefitId) l ->
  Benefit.id b = benefitId -> Benefit.claimed b = true.
Proof.
  intros Hb Hid. change (b ∈ useDashboardStore.mark benefitId <$> l) in Hb.
  apply list_elem_of_fmap in Hb as (b0 & -> & _).
  rewrite mark_id in Hid. by rewrite mark_same.
Qed.

(** C7. A successful [claimBenefit(id)] followed by a second successful
    [claimBenefit(id)]: both calls finish without throwing, the store after
    the second is the store after the first, every entry with identifier [id]
    has [claimed = true], and the collection has the length and the sequence
    of identifiers it had before the first call (no entry is duplicated). *)
Theorem claim_again_is_idempotent (w : world) (benefitId : string) :
  exists l1 l2,
    call_claim benefitId (Fulfilled true) w = Some l1 /\
    exec [Call (useDashboardStore.claimBenefit benefitId);
          SettleClaimBenefit 1 (Fulfilled true)] l1 = Some l2 /\
    settled l2 = [(0%nat, Returned); (1%nat, Returned)] /\
    state (now l2) = state (now l1) /\
    (forall b, b ∈ benefits (state (now l2)) ->
               Benefit.id b = benefitId -> Benefit.claimed b = true) /\
    length (benefits (state (now l2))) = length (benefits (state w)) /\
    Benefit.id <$> benefits (state (now l2)) = Benefit.id <$> benefits (state w).
Proof.
  rewrite call_claim_true. eexists. eexists. split; [reflexivity|].
  split; [reflexivity|]. simpl. split; [done|].
  rewrite map_mark_idemp. split; [done|]. split; [|split].
  - apply elem_of_map_mark_claimed.
  - apply length_map.
  - apply map_mark_ids.
Qed.

Lemma claim_again_is_idempotent_witness :
  exists l1 l2,
    call_claim "1" (Fulfilled true) (mkWorld loaded []) = Some l1 /\
    exec [Call (useDashboardStore.claimBenefit "1");
          SettleClaimBenefit 1 (Fulfilled true)] l1 = Some l2 /\
    state (now l2) = state (now l1) /\
    Benefit.claimed <$> benefits (state (now l2)) = [true; false; true; false; false; false] /\
    Benefit.id <$> benefits (state (now l2)) = ["1"; "2"; "3"; "4"; "5"; "6"].
Proof.
  destruct (claim_again_is_idempotent (mkWorld loaded []) "1")
    as (l1 & l2 & H1 & H2 & _ & Hsame & _ & _ & Hids).
  exists l1, l2. split; [exact H1|]. split; [exact H2|]. split; [exact Hsame|].
  split; [|rewrite Hids; reflexivity].
  rewrite Hsame. injection H1 as <-. reflexivity.
Defined.

Lemma matching_map_mark (benefitId : string) (l : list Benefit.t) :
  matching benefitId (map (useDashboardStore.mark benefitId) l) =
  with_claimed_true <$> matching benefitId l.
Proof.
  unfold matching. induction l as [|b l IH]; [done|]. simpl map.
  destruct (decide (Benefit.id b = benefitId)) as [Hid|Hid].
  - rewrite (filter_cons_True _ b l Hid), fmap_cons, <- IH, mark_same by done.
    by rewrite filter_cons_True.
  - rewrite (filter_cons_False _ b l Hid), mark_other by done.
    by rewrite filter_cons_False.
Qed.

Lemma matching_absent (benefitId : string) (l : list Benefit.t) :
  benefitId ∉ Benefit.id <$> l -> matching benefitId l = [].
Proof.
  unfold matching. induction l as [|b l IH]; [done|].
  rewrite fmap_cons, not_elem_of_cons. intros [Hb Hl].
  rewrite filter_cons_False by done. by apply IH.
Qed.

Lemma matching_NoDup (benefitId : string) (l : list Benefit.t) :
  NoDup (Benefit.id <$> l) -> (length (matching benefitId l) <= 1)%nat.
Proof.
  induction l as [|b l IH]; [simpl; lia|].
  rewrite fmap_cons, NoDup_cons. intros [Hb Hl]. unfold matching.
  destruct (decide (Benefit.id b = benefitId)) as [Hid|Hid].
  - rewrite filter_cons_True by done. rewrite Hid in Hb.
    fold (matching benefitId l). rewrite matching_absent by done. simpl. lia.
  - rewrite filter_cons_False by done. by apply IH.
Qed.

(** C9. A successful [claimBenefit(id)] sets [claimed = true] on every entry
    whose identifier is [id], at every position where one stands: when
    several entries share the identifier all of them are flipped, and the
    entries with that identifier afterwards are the ones before, each with
    [claimed: true].  That at most one entry is concerned needs the
    identifiers of the collection to be distinct. *)
Theorem claim_success_flips_every_match (w : world) (benefitId : string) :
  exists l, call_claim benefitId (Fulfilled true) w = Some l /\
    (forall (i : nat) (b : Benefit.t),
        benefits (state w) !! i = Some b -> Benefit.id b = benefitId ->
        benefits (state (now l)) !! i = Some (with_claimed_true b)) /\
    matching benefitId (benefits (state (now l))) =
      with_claimed_true <$> matching benefitId (benefits (state w)) /\
    Forall (fun b => Benefit.claimed b = true) (matching benefitId (benefits (state (now l)))) /\
    (NoDup (Benefit.id <$> benefits (state w)) ->
     (length (matching benefitId (benefits (state (now l)))) <= 1)%nat).
Proof.
  rewrite call_claim_true. eexists; split; [reflexivity|]. simpl.
  split; [|split; [|split]].
  - intros i b Hb Hid. by rewrite lookup_map_mark, Hb, <- (mark_same benefitId b Hid).
  - apply matching_map_mark.
  - rewrite matching_map_mark. apply Forall_fmap, Forall_true. done.
  - intros Hids. rewrite matching_map_mark, length_fmap. by apply matching_NoDup.
Qed.

Lemma claim_success_flips_every_match_witness :
  exists l, call_claim "2" (Fulfilled true) (mkWorld doubled []) = Some l /\
    Benefit.claimed <$> benefits (state (now l)) =
      [false; true; true; false; false; false; false; true; true; false; false; false] /\
    length (matching "2" (benefits (state (now l)))) = 2%nat.
Proof.
  destruct (claim_success_flips_every_match (mkWorld doubled []) "2")
    as (l & Hl & _ & Hmatching & _ & _).
  exists l. split; [exact Hl|]. split.
  - injection Hl as <-. reflexivity.
  - rewrite Hmatching. reflexivity.
Defined.

(** C10. [claimBenefit(id)] writes at most the [benefits] field: whichever
    boolean the gateway resolves, and also when its promise rejects, [user],
    [rewardPoints] and [isLoading] are what they were before the call. *)
Theorem claim_writes_only_benefits (w : world) (benefitId : string) (r : outcome bool) :
  exists l, call_claim benefitId r w = Some l /\
    user (state (now l)) = user (state w) /\
    rewardPoints (state (now l)) = rewardPoints (state w) /\
    isLoading (state (now l)) = isLoading (state w).
Proof.
  destruct r as [[|]|e].
  - rewrite call_claim_true. by eexists.
  - rewrite call_claim_false. by eexists.
  - rewrite call_claim_rejected. by eexists.
Qed.

(** ** Loading *)

(** C3. [loadDashboardData()] finishes with [isLoading = false] and without
    throwing, whether the gateway promise fulfils or rejects.  When it
    fulfils, the three data fields are the ones received; when it rejects,
    [user], [benefits] and [rewardPoints] are what they were before the call
    and the failure is written to the console. *)
Theorem load_always_clears_isLoading (w : world) (r : outcome DashboardData.t) :
  exists l, call_load r w = Some l /\
    settled l = [(0%nat, Returned)] /\
    inflight l = [None] /\
    isLoading (state (now l)) = false /\
    match r with
    | Fulfilled data =>
        user (state (now l)) = Some (DashboardData.user data) /\
        benefits (state (now l)) = DashboardData.benefits data /\
        rewardPoints (state (now l)) = Some (DashboardData.rewardPoints data)
    | Rejected e =>
        user (state (now l)) = user (state w) /\
        benefits (state (now l)) = benefits (state w) /\
        rewardPoints (state (now l)) = rewardPoints (state w) /\
        console (now l) = (console w ++ [("Failed to load dashboard data:", e)])%list
    end.
Proof.
  destruct r as [data|e].
  - rewrite call_load_fulfilled. by eexists.
  - rewrite call_load_rejected. by eexists.
Qed.

(** C8. The gateway's [getDashboardData] fulfils, with [isLoading: false] in
    its data.  From the initial store ([isLoading = true], no benefits),
    [loadDashboardData()] against it finishes with [isLoading = false] and six
    benefits, of which exactly the one with identifier "3" has
    [claimed = true]. *)
Theorem load_from_initial_state :
  isLoading useDashboardStore.initial = true /\
  benefits useDashboardStore.initial = [] /\
  (exists data, dashboardApi.getDashboardData = Fulfilled data /\
     DashboardData.isLoading data = false) /\
  exists l,
    call_load dashboardApi.getDashboardData (mkWorld useDashboardStore.initial []) = Some l /\
    settled l = [(0%nat, Returned)] /\
    console (now l) = [] /\
    isLoading (state (now l)) = false /\
    length (benefits (state (now l))) = 6%nat /\
    Benefit.id <$> benefits (state (now l)) = ["1"; "2"; "3"; "4"; "5"; "6"] /\
    Benefit.id <$> filter (fun b => Benefit.claimed b = true) (benefits (state (now l))) = ["3"].
Proof.
  split; [reflexivity|]. split; [reflexivity|]. split.
  - eexists. split; reflexivity.
  - eexists. split; [reflexivity|]. repeat split.
Qed.

(** ** Calls in flight together *)

(** A call of [loadDashboardData] suspended at its [await], in any loop and
    whatever happened since it was made: when the gateway promise settles the
    call finishes without throwing and [isLoading] is [false]; on rejection
    the data fields are the current ones. *)
Lemma load_settles_in_any_loop (l : loop) (h : nat) (w0 : world) (p : pending)
    (r : outcome DashboardData.t) :
  (run useDashboardStore.loadDashboardData w0).2 = Suspended p ->
  inflight l !! h = Some (Some p) ->
  exists l', step (SettleGetDashboardData h r) l = Some l' /\
    settled l' = (settled l ++ [(h, Returned)])%list /\
    isLoading (state (now l')) = false /\
    match r with
    | Fulfilled data => benefits (state (now l')) = DashboardData.benefits data
    | Rejected _ =>
        user (state (now l')) = user (state (now l)) /\
        benefits (state (now l')) = benefits (state (now l)) /\
        rewardPoints (state (now l')) = rewardPoints (state (now l))
    end.
Proof.
  simpl. intros [= <-] Hh. unfold step. rewrite Hh.
  destruct r as [data|e]; by eexists.
Qed.

(** A call of [claimBenefit(benefitId)] suspended at its [await]: when the
    gateway resolves [true], the collection mapped is the one in the store at
    that moment. *)
Lemma claim_settles_in_any_loop (l : loop) (h : nat) (w0 : world) (p : pending)
    (benefitId : string) :
  (run (useDashboardStore.claimBenefit benefitId) w0).2 = Suspended p ->
  inflight l !! h = Some (Some p) ->
  exists l', step (SettleClaimBenefit h (Fulfilled true)) l = Some l' /\
    settled l' = (settled l ++ [(h, Returned)])%list /\
    benefits (state (now l')) =
      map (useDashboardStore.mark benefitId) (benefits (state (now l))).
Proof.
  simpl. intros [= <-] Hh. unfold step. rewrite Hh. by eexists.
Qed.

Lemma claimed_in_map_mark (benefitId : string) (l : list Benefit.t) :
  claimed_in benefitId l (map (useDashboardStore.mark benefitId) l).
Proof.
  split; [apply length_map|].
  intros i b Hb. exists (useDashboardStore.mark benefitId b).
  rewrite lookup_map_mark, Hb. split; [done|].
  split; [apply same_but_claimed_mark|]. split; intros Hid.
  - by rewrite mark_same.
  - by apply mark_other.
Qed.

(** C2. A [claimBenefit(id)] in flight while [loadDashboardData()] replaces
    the collection, and resolving [true] after the load has finished, is
    applied to the loaded collection: the final store holds the received
    user and reward points, [isLoading = false], and the received benefits
    with the entries of identifier [id] claimed - same length, the entries
    with that identifier have [claimed = true] and their other fields as
    received, every other entry is as received - whatever the store held when
    the claim was made, and whichever of the two calls was made first. *)
Theorem claim_resolving_after_load_uses_loaded_collection
    (w : world) (benefitId : string) (data : DashboardData.t) :
  (exists l,
     exec [Call (useDashboardStore.claimBenefit benefitId);
           Call useDashboardStore.loadDashboardData;
           SettleGetDashboardData 1 (Fulfilled data);
           SettleClaimBenefit 0 (Fulfilled true)] (start w) = Some l /\
     settled l = [(1%nat, Returned); (0%nat, Returned)] /\
     state (now l) = loaded_then_claimed data benefitId /\
     user (state (now l)) = Some (DashboardData.user data) /\
     rewardPoints (state (now l)) = Some (DashboardData.rewardPoints data) /\
     isLoading (state (now l)) = false /\
     claimed_in benefitId (DashboardData.benefits data) (benefits (state (now l)))) /\
  (exists l,
     exec [Call useDashboardStore.loadDashboardData;
           Call (useDashboardStore.claimBenefit benefitId);
           SettleGetDashboardData 0 (Fulfilled data);
           SettleClaimBenefit 1 (Fulfilled true)] (start w) = Some l /\
     settled l = [(0%nat, Returned); (1%nat, Returned)] /\
     state (now l) = loaded_then_claimed data benefitId /\
     user (state (now l)) = Some (DashboardData.user data) /\
     rewardPoints (state (now l)) = Some (DashboardData.rewardPoints data) /\
     isLoading (state (now l)) = false /\
     claimed_in benefitId (DashboardData.benefits data) (benefits (state (now l)))).
Proof.
  split; eexists; (split; [reflexivity|]); (split; [reflexivity|]);
    (split; [reflexivity|]); (split; [reflexivity|]); (split; [reflexivity|]);
    (split; [reflexivity|]); apply claimed_in_map_mark.
Qed.

(** The collection held when the claim was made plays no part: from the
    initial store the result differs from what mapping the collection of
    that moment (the empty one) would give. *)
Example claim_resolving_after_load_is_not_stale :
  exists l,
    exec [Call (useDashboardStore.claimBenefit "1");
          Call useDashboardStore.loadDashboardData;
          SettleGetDashboardData 1 dashboardApi.getDashboardData;
          SettleClaimBenefit 0 (Fulfilled true)]
         (start (mkWorld useDashboardStore.initial [])) = Some l /\
    Benefit.claimed <$> benefits (state (now l)) = [true; false; true; false; false; false] /\
    benefits (state (now l)) <>
      map (useDashboardStore.mark "1") (benefits useDashboardStore.initial).
Proof. eexists. split; [reflexivity|]. split; [reflexivity|]. discriminate. Qed.

(** ** The gateway's claim *)

Lemma Qgtb_true (x y : Q) : Qgtb x y = true <-> (y < x)%Q.
Proof.
  unfold Qgtb. rewrite negb_true_iff, <- not_true_iff_false, Qle_bool_iff.
  split; [apply Qnot_le_lt | apply Qlt_not_le].
Qed.

Lemma Qgtb_false (x y : Q) : Qgtb x y = false <-> (x <= y)%Q.
Proof. unfold Qgtb. by rewrite negb_false_iff, Qle_bool_iff. Qed.

Lemma binary64_0_1_rounds_one_tenth :
  (0.1 < binary64_0_1 <= 0.1 + (1 # 144115188075855872))%Q.    (* half an ulp, 2^-57 *)
Proof. split; [reflexivity | apply Qle_bool_iff; reflexivity]. Qed.

Lemma Qgtb_binary64_0_1 (k : Z) :
  Qgtb (k # 9007199254740992) binary64_0_1 = Qgtb (k # 9007199254740992) 0.1%Q.
Proof.
  unfold Qgtb, Qle_bool, binary64_0_1. cbn [Qnum Qden]. f_equal.
  destruct (Z.leb_spec (k * Z.pos 36028797018963968)
                       (3602879701896397 * Z.pos 9007199254740992));
    destruct (Z.leb_spec (k * Z.pos 10) (1 * Z.pos 9007199254740992));
    try reflexivity; lia.
Qed.

Lemma length_filter_above (n len start : nat) :
  length (filter (fun k => (n < k)%nat) (seq start len)) =
  (start + len - Nat.max start (S n))%nat.
Proof.
  revert start. induction len as [|len IH]; intros start; [simpl; lia|].
  simpl seq. destruct (decide (n < start)%nat) as [Hlt|Hge].
  - rewrite filter_cons_True by done. simpl. rewrite IH. lia.
  - rewrite filter_cons_False by done. rewrite IH. lia.
Qed.

Lemma claimBenefit_true (benefitId : string) (r : Q) :
  dashboardApi.claimBenefit benefitId r = Fulfilled true <-> (binary64_0_1 < r)%Q.
Proof.
  unfold dashboardApi.claimBenefit. rewrite <- Qgtb_true.
  split; [by intros [= ->] | by intros ->].
Qed.

Lemma claimBenefit_false (benefitId : string) (r : Q) :
  dashboardApi.claimBenefit benefitId r = Fulfilled false <-> (r <= binary64_0_1)%Q.
Proof.
  unfold dashboardApi.claimBenefit. rewrite <- Qgtb_false.
  split; [by intros [= ->] | by intros ->].
Qed.

(** On a draw that is a multiple of 2^-53, exceeding the literal [0.1] and
    exceeding one tenth are the same. *)
Lemma draw_53_success (benefitId : string) (k : Z) :
  dashboardApi.claimBenefit benefitId (draw_53 k) = Fulfilled true <-> (0.1 < draw_53 k)%Q.
Proof.
  rewrite <- Qgtb_true. unfold dashboardApi.claimBenefit, draw_53.
  rewrite Qgtb_binary64_0_1. split; [by intros [= ->] | by intros ->].
Qed.

Lemma draw_53_failure (benefitId : string) (k : Z) :
  dashboardApi.claimBenefit benefitId (draw_53 k) = Fulfilled false <-> (draw_53 k <= 0.1)%Q.
Proof.
  rewrite <- Qgtb_false. unfold dashboardApi.claimBenefit, draw_53.
  rewrite Qgtb_binary64_0_1. split; [by intros [= ->] | by intros ->].
Qed.

Lemma draw_53_range (k : Z) :
  (0 <= draw_53 k < 1)%Q <-> 0 <= k < 9007199254740992.
Proof. unfold draw_53, Qle, Qlt. cbn [Qnum Qden]. lia. Qed.

Lemma grid_draw_success (benefitId : string) (n : positive) (k : nat) :
  (n < 18014398509481984)%positive ->
  dashboardApi.claimBenefit benefitId (grid_draw n k) = Fulfilled true <->
  (Pos.to_nat n < k)%nat.
Proof.
  intros Hn. rewrite claimBenefit_true.
  unfold Qlt, grid_draw, binary64_0_1. cbn [Qnum Qden].
  rewrite Znat.Nat2Z.inj_lt, positive_nat_Z, Pos2Z.inj_mul.
  apply Pos2Z.pos_lt_pos in Hn. pose proof (Pos2Z.is_pos n) as Hpos.
  generalize dependent (Z.of_nat k). generalize dependent (Z.pos n).
  intros a Ha Hpos b. lia.
Qed.

Lemma length_successful_draws (benefitId : string) (n : positive) :
  (n < 18014398509481984)%positive ->
  length (successful_draws benefitId n) = (9 * Pos.to_nat n - 1)%nat.
Proof.
  intros Hn. unfold successful_draws.
  rewrite (list_filter_iff _ (fun k => (Pos.to_nat n < k)%nat))
    by (intros k; by apply grid_draw_success).
  rewrite length_filter_above. clear Hn. lia.
Qed.

(** C6. With [r] the number [Math.random()] draws from [0,1), the gateway's
    [claimBenefit(benefitId)] never rejects, and resolves [true] exactly when
    [r > 0.1] and [false] exactly when [r <= 0.1], whatever [benefitId] is:
    two calls with the same draw resolve alike for any two identifiers.
    [0.1] is the number the literal denotes, within 2^-57 above one tenth;
    on the draws that are multiples of 2^-53 it is the same to exceed the
    literal and to exceed one tenth, so the draws of [0,1) that give [true]
    are those of the interval from 0.1 to 1, of probability 0.9 under the
    uniform distribution; of the [10 * n] equally spaced draws
    [k / (10 * n)], with [n < 2^54], [9 * n - 1] give [true], a share that
    differs from 0.9 by [1 / (10 * n)]. *)
Theorem gateway_claim_decided_by_draw_alone :
  (forall benefitId r, exists success, dashboardApi.claimBenefit benefitId r = Fulfilled success) /\
  (0.1 < binary64_0_1 <= 0.1 + (1 # 144115188075855872))%Q /\
  (forall benefitId r,
     dashboardApi.claimBenefit benefitId r = Fulfilled true <-> (binary64_0_1 < r)%Q) /\
  (forall benefitId r,
     dashboardApi.claimBenefit benefitId r = Fulfilled false <-> (r <= binary64_0_1)%Q) /\
  (forall benefitId k,
     dashboardApi.claimBenefit benefitId (draw_53 k) = Fulfilled true <-> (0.1 < draw_53 k)%Q) /\
  (forall benefitId k,
     dashboardApi.claimBenefit benefitId (draw_53 k) = Fulfilled false <-> (draw_53 k <= 0.1)%Q) /\
  (forall id1 id2 r, dashboardApi.claimBenefit id1 r = dashboardApi.claimBenefit id2 r) /\
  (forall benefitId k, (0 <= draw_53 k < 1)%Q ->
     (dashboardApi.claimBenefit benefitId (draw_53 k) = Fulfilled true <->
      (0.1 < draw_53 k < 1)%Q)) /\
  (uniform_probability 0.1 1 == 0.9)%Q /\
  (forall benefitId n, (n < 18014398509481984)%positive ->
     length (successful_draws benefitId n) = (9 * Pos.to_nat n - 1)%nat).
Proof.
  split; [|split; [|split; [|split; [|split; [|split; [|split; [|split; [|split]]]]]]]].
  - intros benefitId r. by eexists.
  - apply binary64_0_1_rounds_one_tenth.
  - apply claimBenefit_true.
  - apply claimBenefit_false.
  - apply draw_53_success.
  - apply draw_53_failure.
  - reflexivity.
  - intros benefitId k [_ Hlt]. rewrite draw_53_success. tauto.
  - reflexivity.
  - apply length_successful_draws.
Qed.

Local Open Scope list_scope.

(** ** The benefits grid *)

Lemma card_benefit_imap (g : nat -> nat) (l : list Benefit.t) :
  card_benefit <$> imap (fun index benefit => BenefitCard benefit (g index)) l = l.
Proof.
  apply list_eq. intros i.
  rewrite list_lookup_fmap, list_lookup_imap. by destruct (l !! i).
Qed.

Lemma claimed_grid_default (benefits : list Benefit.t) :
  default [] (claimed_grid (BenefitsSection benefits)) =
  imap (fun index benefit => BenefitCard benefit index)
       (filter (fun b => Benefit.claimed b) benefits).
Proof.
  unfold BenefitsSection. cbn [claimed_grid]. case_decide as Hlen; [done|].
  destruct (filter (fun b => Benefit.claimed b) benefits); [done|simpl in Hlen; lia].
Qed.

Lemma filter_claimed_complement (benefits : list Benefit.t) :
  filter (fun b => negb (Benefit.claimed b)) benefits ++
  filter (fun b => Benefit.claimed b) benefits ≡ₚ benefits.
Proof.
  rewrite (list_filter_iff (fun b => Is_true (Benefit.claimed b))
                           (fun b => ~ negb (Benefit.claimed b))).
  - apply filter_app_complement.
  - intros b. destruct (Benefit.claimed b); simpl; tauto.
Qed.

Lemma BenefitsSection_shows_each_once (benefits : list Benefit.t) :
  card_benefit <$> cards (BenefitsSection benefits) ≡ₚ benefits /\
  waiting (BenefitsSection benefits) = length (available_grid (BenefitsSection benefits)) /\
  (waiting (BenefitsSection benefits) +
     length (default [] (claimed_grid (BenefitsSection benefits))) = length benefits)%nat /\
  card_benefit <$> available_grid (BenefitsSection benefits) `sublist_of` benefits /\
  card_benefit <$> default [] (claimed_grid (BenefitsSection benefits)) `sublist_of` benefits /\
  (claimed_grid (BenefitsSection benefits) = None <->
     Forall (fun b => Benefit.claimed b = false) benefits).
Proof.
  unfold cards. rewrite claimed_grid_default. unfold BenefitsSection at 1 2 3 4 5.
  cbn [available_grid waiting]. rewrite fmap_app.
  rewrite !(card_benefit_imap (fun i => i)), !length_imap.
  split; [apply filter_claimed_complement|]. split; [done|]. split.
  { rewrite <- length_app. by rewrite filter_claimed_complement. }
  split; [apply sublist_filter|]. split; [apply sublist_filter|].
  unfold BenefitsSection. cbn [claimed_grid]. rewrite Forall_forall. split.
  - case_decide as Hlen; [done|]. intros _ b Hb.
    destruct (Benefit.claimed b) eqn:Hc; [|done].
    assert (b ∈ filter (fun b => Benefit.claimed b) benefits) as Hin
      by (apply list_elem_of_filter; by rewrite Hc).
    destruct (filter (fun b => Benefit.claimed b) benefits);
      [by apply elem_of_nil in Hin | simpl in Hlen; lia].
  - intros Hall. case_decide as Hlen; [|done].
    destruct (filter (fun b => Benefit.claimed b) benefits) as [|b l] eqn:Hf;
      [simpl in Hlen; lia|].
    assert (b ∈ filter (fun b => Benefit.claimed b) benefits) as Hin
      by (rewrite Hf; left).
    apply list_elem_of_filter in Hin as [Hc Hb]. rewrite (Hall b Hb) in Hc. done.
Qed.

Lemma available_grid_benefits (benefits : list Benefit.t) :
  card_benefit <$> available_grid (BenefitsSection benefits) =
  filter (fun b => negb (Benefit.claimed b)) benefits.
Proof. unfold BenefitsSection. cbn [available_grid]. apply (card_benefit_imap (fun i => i)). Qed.

Lemma claimed_grid_benefits (benefits : list Benefit.t) :
  card_benefit <$> default [] (claimed_grid (BenefitsSection benefits)) =
  filter (fun b => Benefit.claimed b) benefits.
Proof. rewrite claimed_grid_default. apply (card_benefit_imap (fun i => i)). Qed.

Lemma card_index_imap (l : list Benefit.t) :
  card_index <$> imap (fun index benefit => BenefitCard benefit index) l = seq 0 (length l).
Proof.
  apply list_eq. intros i. rewrite list_lookup_fmap, list_lookup_imap.
  destruct (l !! i) as [b|] eqn:Hi; simpl.
  - apply lookup_lt_Some in Hi. symmetry. by apply lookup_seq_lt.
  - apply lookup_ge_None in Hi. symmetry. by apply lookup_seq_ge.
Qed.

(** X1. [BenefitsSection] splits the collection in two: the available grid
    shows exactly the benefits that are not claimed, the "Recently Claimed"
    grid exactly the claimed ones, so that the cards of both grids together
    show each benefit once; each grid is in the order of the collection and
    numbers its cards from 0; the header counts the cards of the first grid;
    and the "Recently Claimed" grid is left out exactly when no benefit is
    claimed. *)
Theorem BenefitsSection_splits_collection (benefits : list Benefit.t) :
  (forall b, b ∈ card_benefit <$> available_grid (BenefitsSection benefits) <->
             b ∈ benefits /\ Benefit.claimed b = false) /\
  (forall b, b ∈ card_benefit <$> default [] (claimed_grid (BenefitsSection benefits)) <->
             b ∈ benefits /\ Benefit.claimed b = true) /\
  card_index <$> available_grid (BenefitsSection benefits) =
    seq 0 (waiting (BenefitsSection benefits)) /\
  card_index <$> default [] (claimed_grid (BenefitsSection benefits)) =
    seq 0 (length (default [] (claimed_grid (BenefitsSection benefits)))) /\
  card_benefit <$> cards (BenefitsSection benefits) ≡ₚ benefits /\
  waiting (BenefitsSection benefits) = length (available_grid (BenefitsSection benefits)) /\
  (waiting (BenefitsSection benefits) +
     length (default [] (claimed_grid (BenefitsSection benefits))) = length benefits)%nat /\
  card_benefit <$> available_grid (BenefitsSection benefits) `sublist_of` benefits /\
  card_benefit <$> default [] (claimed_grid (BenefitsSection benefits)) `sublist_of` benefits /\
  (claimed_grid (BenefitsSection benefits) = None <->
     Forall (fun b => Benefit.claimed b = false) benefits).
Proof.
  split; [|split; [|split; [|split]]].
  - intros b. rewrite available_grid_benefits, list_elem_of_filter.
    destruct (Benefit.claimed b); simpl; intuition congruence.
  - intros b. rewrite claimed_grid_benefits, list_elem_of_filter.
    destruct (Benefit.claimed b); simpl; intuition congruence.
  - unfold BenefitsSection. cbn [available_grid waiting]. apply card_index_imap.
  - rewrite claimed_grid_default, length_imap. apply card_index_imap.
  - apply BenefitsSection_shows_each_once.
Qed.

Lemma clicks_enabled (g : nat -> nat) (l : list Benefit.t) :
  on_click <$> filter (fun c => negb (button_disabled c))
                 (imap (fun index benefit => BenefitCard benefit (g index))
                       (filter (fun b => negb (Benefit.claimed b)) l)) =
  Benefit.id <$> filter (fun b => negb (Benefit.claimed b)) l.
Proof.
  revert g. induction l as [|b l IH]; intros g; [done|].
  destruct (Benefit.claimed b) eqn:Hc.
  - rewrite !(filter_cons_False _ b l) by (rewrite Hc; simpl; tauto). apply IH.
  - rewrite !(filter_cons_True _ b l) by (by rewrite Hc).
    rewrite imap_cons, filter_cons_True by (simpl; by rewrite Hc).
    rewrite !fmap_cons. f_equal. apply (IH (fun i => g (S i))).
Qed.

Lemma clicks_disabled (g : nat -> nat) (l : list Benefit.t) :
  filter (fun c => negb (button_disabled c))
         (imap (fun index benefit => BenefitCard benefit (g index))
               (filter (fun b => Benefit.claimed b) l)) = [].
Proof.
  revert g. induction l as [|b l IH]; intros g; [done|].
  destruct (Benefit.claimed b) eqn:Hc.
  - rewrite (filter_cons_True _ b l) by (by rewrite Hc).
    rewrite imap_cons, filter_cons_False by (simpl; rewrite Hc; simpl; tauto).
    apply (IH (fun i => g (S i))).
  - rewrite (filter_cons_False _ b l) by (rewrite Hc; simpl; tauto). apply IH.
Qed.

Lemma clicks_BenefitsSection (benefits : list Benefit.t) :
  clicks (BenefitsSection benefits) =
  Benefit.id <$> filter (fun b => negb (Benefit.claimed b)) benefits.
Proof.
  unfold clicks, cards. rewrite claimed_grid_default. unfold BenefitsSection.
  cbn [available_grid]. rewrite filter_app, fmap_app.
  rewrite (clicks_enabled (fun i => i)), (clicks_disabled (fun i => i)).
  by rewrite app_nil_r.
Qed.

(** X2. A click in the benefits section can hand [onClaim] only the
    identifier of a benefit that is not claimed: the buttons of the claimed
    cards are disabled.  Every unclaimed benefit can be clicked; with distinct
    identifiers, the identifier of a claimed benefit cannot. *)
Theorem BenefitsSection_clicks_only_unclaimed (benefits : list Benefit.t) (benefitId : string) :
  (benefitId ∈ clicks (BenefitsSection benefits) <->
     exists b, b ∈ benefits /\ Benefit.id b = benefitId /\ Benefit.claimed b = false) /\
  (NoDup (Benefit.id <$> benefits) ->
   forall b, b ∈ benefits -> Benefit.claimed b = true ->
             Benefit.id b ∉ clicks (BenefitsSection benefits)).
Proof.
  rewrite clicks_BenefitsSection. split.
  - rewrite list_elem_of_fmap. split.
    + intros (b & -> & Hb). apply list_elem_of_filter in Hb as [Hc Hb].
      exists b. by destruct (Benefit.claimed b).
    + intros (b & Hb & <- & Hc). exists b. split; [done|].
      apply list_elem_of_filter. by rewrite Hc.
  - intros Hnodup b Hb Hc Hin. apply list_elem_of_fmap in Hin as (b' & Hid & Hb').
    apply list_elem_of_filter in Hb' as [Hc' Hb'].
    assert (b = b') as <-.
    { apply list_elem_of_lookup in Hb as [i Hi]. apply list_elem_of_lookup in Hb' as [j Hj].
      assert (i = j) as <-.
      { apply (NoDup_lookup _ i j (Benefit.id b) Hnodup).
        - by rewrite list_lookup_fmap, Hi.
        - by rewrite list_lookup_fmap, Hj, Hid. }
      congruence. }
    by rewrite Hc in Hc'.
Qed.

Lemma length_filter_unclaimed_mark (benefitId : string) (l : list Benefit.t) :
  (length (filter (fun b => negb (Benefit.claimed b)) (map (useDashboardStore.mark benefitId) l))
   <= length (filter (fun b => negb (Benefit.claimed b)) l))%nat.
Proof.
  induction l as [|b l IH]; [done|]. simpl map.
  destruct (Benefit.claimed b) eqn:Hc.
  - rewrite (filter_cons_False _ b l) by (rewrite Hc; simpl; tauto).
    rewrite filter_cons_False; [done|].
    unfold useDashboardStore.mark. case_decide; simpl; rewrite ?Hc; simpl; tauto.
  - rewrite (filter_cons_True _ b l) by (by rewrite Hc). simpl.
    destruct (decide (negb (Benefit.claimed (useDashboardStore.mark benefitId b)))).
    + rewrite filter_cons_True by done. simpl. lia.
    + rewrite filter_cons_False by done. lia.
Qed.

(** X3. After a successful [claimBenefit(id)] the benefits section rendered
    from the store has no enabled button left that claims [id], whatever the
    collection was, and its header counts no more benefits than before. *)
Theorem claimed_id_is_no_longer_clickable (w : world) (benefitId : string) :
  exists l, call_claim benefitId (Fulfilled true) w = Some l /\
    (benefitId ∉ clicks (BenefitsSection (benefits (state (now l))))) /\
    (waiting (BenefitsSection (benefits (state (now l))))
     <= waiting (BenefitsSection (benefits (state w))))%nat.
Proof.
  rewrite call_claim_true. eexists; split; [reflexivity|]. simpl. split.
  - rewrite clicks_BenefitsSection. intros Hin.
    apply list_elem_of_fmap in Hin as (b & Hid & Hb).
    apply list_elem_of_filter in Hb as [Hc Hb].
    rewrite (elem_of_map_mark_claimed benefitId _ b Hb) in Hc; done.
  - apply length_filter_unclaimed_mark.
Qed.

Lemma map_mark_middle (benefitId : string) (l1 l2 : list Benefit.t) (b : Benefit.t) :
  benefitId ∉ Benefit.id <$> l1 -> benefitId ∉ Benefit.id <$> l2 ->
  Benefit.id b = benefitId ->
  map (useDashboardStore.mark benefitId) (l1 ++ b :: l2) = l1 ++ with_claimed_true b :: l2.
Proof.
  intros H1 H2 Hid. rewrite map_app. simpl map.
  by rewrite !map_mark_absent, mark_same.
Qed.

Lemma NoDup_ids_middle (l1 l2 : list Benefit.t) (b : Benefit.t) :
  NoDup (Benefit.id <$> (l1 ++ b :: l2)) ->
  (Benefit.id b ∉ Benefit.id <$> l1) /\ (Benefit.id b ∉ Benefit.id <$> l2).
Proof.
  rewrite fmap_app, fmap_cons, NoDup_app, NoDup_cons.
  intros (_ & Hdisjoint & Hb & _). split; [|done].
  intros Hin. apply (Hdisjoint _ Hin). left.
Qed.

(** X4. In a collection with distinct identifiers, a successful
    [claimBenefit(id)] for an entry that was not claimed takes exactly one card
    out of the available grid: the header counts one benefit less, and the
    entry, now claimed, is shown in the "Recently Claimed" grid. *)
Theorem claimed_card_moves_to_claimed_grid (w : world) (benefitId : string)
    (i : nat) (b : Benefit.t)
    (Hids : NoDup (Benefit.id <$> benefits (state w)))
    (Hb : benefits (state w) !! i = Some b)
    (Hid : Benefit.id b = benefitId)
    (Hunclaimed : Benefit.claimed b = false) :
  exists l, call_claim benefitId (Fulfilled true) w = Some l /\
    (waiting (BenefitsSection (benefits (state (now l)))) + 1 =
     waiting (BenefitsSection (benefits (state w))))%nat /\
    exists cs, claimed_grid (BenefitsSection (benefits (state (now l)))) = Some cs /\
      with_claimed_true b ∈ card_benefit <$> cs.
Proof.
  rewrite call_claim_true. eexists; split; [reflexivity|]. simpl.
  rewrite <- (take_drop_middle _ i b Hb) in Hids |- *.
  destruct (NoDup_ids_middle _ _ _ Hids) as [H1 H2]. rewrite Hid in H1, H2.
  rewrite (map_mark_middle benefitId) by done.
  assert (with_claimed_true b ∈
            filter (fun b => Benefit.claimed b)
                   (take i (benefits (state w)) ++
                    with_claimed_true b :: drop (S i) (benefits (state w)))) as Hin.
  { apply list_elem_of_filter. split; [done|]. apply elem_of_app. right. left. }
  split.
  - rewrite !filter_app, !length_app.
    rewrite (filter_cons_True _ b) by (by rewrite Hunclaimed).
    rewrite (filter_cons_False _ (with_claimed_true b)) by (simpl; tauto).
    simpl. lia.
  - case_decide as Hlen.
    + eexists; split; [reflexivity|]. by rewrite (card_benefit_imap (fun i => i)).
    + destruct (filter _ _); [by apply elem_of_nil in Hin | simpl in Hlen; lia].
Qed.

Lemma claimed_card_moves_to_claimed_grid_witness :
  exists l, call_claim "4" (Fulfilled true) (mkWorld loaded []) = Some l /\
    (waiting (BenefitsSection (benefits (state (now l)))) + 1 = 5)%nat /\
    exists cs, claimed_grid (BenefitsSection (benefits (state (now l)))) = Some cs /\
      Benefit.id <$> (card_benefit <$> cs) = ["3"; "4"].
Proof.
  assert (NoDup (Benefit.id <$> benefits (state (mkWorld loaded [])))) as Hids.
  { apply (bool_decide_unpack _). vm_compute. exact I. }
  destruct (claimed_card_moves_to_claimed_grid (mkWorld loaded []) "4" 3%nat _
              Hids eq_refl eq_refl eq_refl) as (l & Hl & Hwaiting & _).
  exists l. split; [exact Hl|]. split; [exact Hwaiting|].
  injection Hl as <-. eexists. split; reflexivity.
Defined.

(** ** The toast of [handleClaimBenefit] *)

(** X5. [handleClaimBenefit] shows the "Benefit Claimed!" toast however the
    gateway promise settles: the store's [claimBenefit] catches the rejection
    and returns nothing, so the [catch] block with the "Error" toast is never
    entered, also when the gateway resolved [false] or rejected and the store
    is what it was. *)
Theorem handleClaimBenefit_always_toasts_success
    (w : world) (benefitId : string) (gateway : outcome bool) :
  exists w', handleClaimBenefit benefitId gateway w =
               Some (w', {| toast_title := "Benefit Claimed!";
                            toast_description := "Your benefit has been successfully claimed.";
                            toast_variant := None |}) /\
    match gateway with
    | Fulfilled true =>
        benefits (state w') = map (useDashboardStore.mark benefitId) (benefits (state w))
    | _ => state w' = state w
    end.
Proof.
  unfold handleClaimBenefit. destruct gateway as [[|]|e].
  - rewrite call_claim_true. by eexists.
  - rewrite call_claim_false. by eexists.
  - rewrite call_claim_rejected. by eexists.
Qed.

(** ** Traces of store actions *)

Section TraceInvariant.
Variable allowed : task -> Prop.
Variable I : world -> Prop.

Hypothesis allowed_store_action : forall body, allowed body -> store_action body.
Hypothesis I_isLoading : forall w loading,
  I w -> I (mkWorld (merge (only_isLoading loading) (state w)) (console w)).
Hypothesis I_benefits : forall w benefitId,
  I w ->
  I (mkWorld (merge (only_benefits (map (useDashboardStore.mark benefitId) (benefits (state w))))
                    (state w)) (console w)).
Hypothesis I_data : allowed useDashboardStore.loadDashboardData -> forall w data loading,
  I w -> I (mkWorld (merge (spread_with_isLoading data loading) (state w)) (console w)).
Hypothesis I_console : forall w entry,
  I w -> I (mkWorld (state w) (console w ++ [entry])).

Lemma call_keeps (body : task) (w : world) :
  allowed body -> I w -> keeps allowed I (run body w).
Proof.
  intros Hallowed HI. destruct (allowed_store_action body Hallowed); simpl.
  - split; [by apply I_isLoading|]. eexists _, w. split; [exact Hallowed|reflexivity].
  - split; [done|]. eexists _, w. split; [exact Hallowed|reflexivity].
  - split; [by apply I_isLoading|done].
Qed.

Lemma resume_load_keeps (k : outcome DashboardData.t -> task)
    (r : outcome DashboardData.t) (w : world) :
  suspension_of allowed (PendingGetDashboardData k) -> I w -> keeps allowed I (run (k r) w).
Proof.
  intros (body & w0 & Hallowed & Hrun) HI.
  destruct (allowed_store_action body Hallowed); simpl in Hrun; try discriminate.
  injection Hrun as <-. destruct r as [data|e]; simpl.
  - split; [by apply I_data|done].
  - split; [|done]. apply (I_isLoading (mkWorld _ _)). by apply I_console.
Qed.

Lemma resume_claim_keeps (benefitId : string) (k : outcome bool -> task)
    (r : outcome bool) (w : world) :
  suspension_of allowed (PendingClaimBenefit benefitId k) -> I w ->
  keeps allowed I (run (k r) w).
Proof.
  intros (body & w0 & Hallowed & Hrun) HI.
  destruct (allowed_store_action body Hallowed); simpl in Hrun; try discriminate.
  injection Hrun as <- <-. destruct r as [[|]|e]; simpl.
  - split; [by apply I_benefits|done].
  - done.
  - split; [by apply I_console|done].
Qed.

Lemma continue_keeps (h : nat) (body : task) (l : loop) :
  trace_invariant allowed I l -> keeps allowed I (run body (now l)) ->
  trace_invariant allowed I (continue h body l).
Proof.
  intros (HI & Hslots & Hsettled) [HI' Hstatus]. unfold continue.
  destruct (run body (now l)) as [w [c|p]]; simpl in *.
  - split; [done|]. split; [by apply Forall_insert|].
    apply Forall_app. split; [done|]. by apply Forall_singleton.
  - split; [done|]. split; [by apply Forall_insert|done].
Qed.

Lemma step_keeps (e : event) (l l' : loop) :
  match e with Call body => allowed body | _ => True end ->
  trace_invariant allowed I l -> step e l = Some l' -> trace_invariant allowed I l'.
Proof.
  intros He Hl. destruct e as [body|h r|h r]; simpl.
  - intros [= <-]. destruct Hl as (HI & Hslots & Hsettled).
    apply continue_keeps; [|by apply call_keeps].
    split; [done|]. split; [|done]. apply Forall_app. split; [done|].
    by apply Forall_singleton.
  - destruct (inflight l !! h) as [[[k|benefitId k]|]|] eqn:Hh; try discriminate.
    intros [= <-]. apply continue_keeps; [done|].
    apply resume_load_keeps; [|apply Hl].
    destruct Hl as (_ & Hslots & _). by apply (Forall_lookup_1 _ _ _ _ Hslots Hh).
  - destruct (inflight l !! h) as [[[k|benefitId k]|]|] eqn:Hh; try discriminate.
    intros [= <-]. apply continue_keeps; [done|].
    apply (resume_claim_keeps benefitId); [|apply Hl].
    destruct Hl as (_ & Hslots & _). by apply (Forall_lookup_1 _ _ _ _ Hslots Hh).
Qed.

Lemma exec_keeps (es : list event) (l l' : loop) :
  calls_only allowed es ->
  trace_invariant allowed I l -> exec es l = Some l' -> trace_invariant allowed I l'.
Proof.
  revert l. induction es as [|e es IH]; intros l Hes Hl; simpl.
  - by intros [= <-].
  - apply Forall_cons in Hes as [He Hes].
    destruct (step e l) as [l1|] eqn:Hstep; [|discriminate].
    apply IH; [done|]. by apply (step_keeps e l).
Qed.

Lemma start_keeps (w : world) : I w -> trace_invariant allowed I (start w).
Proof. intros HI. split; [done|]. split; constructor. Qed.

End TraceInvariant.

(** X6. Under any interleaving of [loadDashboardData], [claimBenefit] and
    [setLoading] calls with gateway promises settling in any order and any
    way, the promise of every finished call fulfilled: no store action
    rejects. *)
Theorem store_actions_never_reject (w : world) (es : list event) (l : loop)
    (Hcalls : calls_only store_action es)
    (Hexec : exec es (start w) = Some l) :
  Forall (fun hc => hc.2 = Returned) (settled l).
Proof.
  assert (trace_invariant store_action (fun _ => True) l) as (_ & _ & Hsettled);
    [|exact Hsettled].
  eapply (exec_keeps store_action (fun _ => True)); [..|exact Hexec]; try done.
Qed.

Lemma store_actions_never_reject_witness :
  exists l,
    exec trace_both_reject (start (mkWorld loaded [])) = Some l /\
    settled l = [(2%nat, Returned); (1%nat, Returned); (0%nat, Returned)] /\
    Forall (fun hc => hc.2 = Returned) (settled l).
Proof.
  eexists. split; [reflexivity|]. split; [reflexivity|].
  eapply (store_actions_never_reject (mkWorld loaded []) trace_both_reject); [|reflexivity].
  repeat constructor.
Defined.

Lemma populated_renders (st : DashboardStore) :
  populated st -> Forall (fun e => throws e = false) (Dashboard st).
Proof.
  intros [[u Hu] [r Hr]]. unfold Dashboard. rewrite Hu, Hr.
  destruct (isLoading st); repeat constructor.
Qed.

(** X7. Once [user] and [rewardPoints] hold data they hold data for good:
    under any interleaving of store actions and gateway settlements neither
    goes back to [null], so no section of the page throws on rendering. *)
Theorem populated_store_stays_populated (w : world) (es : list event) (l : loop)
    (Hpopulated : populated (state w))
    (Hcalls : calls_only store_action es)
    (Hexec : exec es (start w) = Some l) :
  populated (state (now l)) /\
  Forall (fun e => throws e = false) (Dashboard (state (now l))).
Proof.
  assert (trace_invariant store_action (fun w => populated (state w)) l) as (Hp & _ & _).
  { eapply (exec_keeps store_action (fun w => populated (state w)));
      [..|exact Hexec]; try done. }
  split; [done|]. by apply populated_renders.
Qed.

Lemma populated_store_stays_populated_witness :
  exists l,
    exec trace_failed_reload (start (mkWorld loaded [])) = Some l /\
    populated (state (now l)) /\
    Forall (fun e => throws e = false) (Dashboard (state (now l))).
Proof.
  eexists. split; [reflexivity|].
  eapply (populated_store_stays_populated (mkWorld loaded []) trace_failed_reload);
    [| |reflexivity].
  - split; by eexists.
  - repeat constructor.
Defined.

Lemma only_claimed_more_refl (st : DashboardStore) : only_claimed_more st st.
Proof.
  split; [done|]. split; [done|]. apply Forall2_same_length_lookup.
  split; [done|]. intros i b b' Hb Hb'. assert (b' = b) as -> by congruence.
  by repeat split.
Qed.

Lemma only_claimed_more_mark (benefitId : string) (st st' : DashboardStore) :
  only_claimed_more st st' ->
  only_claimed_more st
    (merge (only_benefits (map (useDashboardStore.mark benefitId) (benefits st'))) st').
Proof.
  intros (Hu & Hr & Hbs). split; [done|]. split; [done|]. simpl.
  apply Forall2_fmap_r. eapply Forall2_impl; [exact Hbs|].
  intros b b' [Hsame Hmono]. pose proof (same_but_claimed_mark benefitId b') as Hmark.
  split.
  - unfold same_but_claimed in *. intuition congruence.
  - intros Hc. specialize (Hmono Hc). unfold useDashboardStore.mark.
    by case_decide.
Qed.

(** X8. Under any interleaving of [claimBenefit] and [setLoading] calls,
    whatever the gateway answers, the collection keeps its length and every
    entry all its fields, except that [claimed] may turn from [false] to
    [true] and never turns back; [user] and [rewardPoints] are untouched.
    Nothing is added, removed or reordered. *)
Theorem claims_only_turn_claimed_on (w : world) (es : list event) (l : loop)
    (Hcalls : calls_only claim_action es)
    (Hexec : exec es (start w) = Some l) :
  only_claimed_more (state w) (state (now l)) /\
  length (benefits (state (now l))) = length (benefits (state w)) /\
  Benefit.id <$> benefits (state (now l)) = Benefit.id <$> benefits (state w).
Proof.
  assert (trace_invariant claim_action
            (fun w' => only_claimed_more (state w) (state w')) l) as (Hmore & _ & _).
  { eapply (exec_keeps claim_action (fun w' => only_claimed_more (state w) (state w')));
      [..|exact Hexec]; try done.
    - intros body []; constructor.
    - intros w' benefitId Hmore. by apply only_claimed_more_mark.
    - intros Hload. inversion Hload.
    - apply start_keeps, only_claimed_more_refl. }
  split; [done|]. destruct Hmore as (_ & _ & Hbs). split.
  - symmetry. by eapply Forall2_length.
  - clear -Hbs. induction Hbs as [|b b' bs bs' [Hsame _] _ IH]; [done|].
    rewrite !fmap_cons, IH. f_equal. apply Hsame.
Qed.

Lemma claims_only_turn_claimed_on_witness :
  exists l,
    exec trace_two_claims (start (mkWorld loaded [])) = Some l /\
    Benefit.claimed <$> benefits (state (now l)) = [true; false; true; false; false; false] /\
    Benefit.id <$> benefits (state (now l)) = ["1"; "2"; "3"; "4"; "5"; "6"].
Proof.
  eexists. split; [reflexivity|]. split; [reflexivity|].
  eapply (claims_only_turn_claimed_on (mkWorld loaded []) trace_two_claims); [|reflexivity].
  repeat constructor.
Defined.

(** ** What the page renders after a load *)


(** ** How calls compose *)

Lemma mark_comm (id1 id2 : string) (b : Benefit.t) :
  useDashboardStore.mark id1 (useDashboardStore.mark id2 b) =
  useDashboardStore.mark id2 (useDashboardStore.mark id1 b).
Proof.
  unfold useDashboardStore.mark.
  repeat (case_decide; simpl in *); congruence.
Qed.

Lemma map_mark_comm (id1 id2 : string) (l : list Benefit.t) :
  map (useDashboardStore.mark id1) (map (useDashboardStore.mark id2) l) =
  map (useDashboardStore.mark id2) (map (useDashboardStore.mark id1) l).
Proof.
  induction l as [|b l IH]; [done|]. simpl. by rewrite mark_comm, IH.
Qed.

(** X10. Two successful claims give the same store whichever is made first
    and, when both are in flight together, whichever resolves first. *)
Theorem two_claims_commute (w : world) (id1 id2 : string) :
  exists l12 l21 lab lba,
    exec [Call (useDashboardStore.claimBenefit id1); SettleClaimBenefit 0 (Fulfilled true);
          Call (useDashboardStore.claimBenefit id2); SettleClaimBenefit 1 (Fulfilled true)]
         (start w) = Some l12 /\
    exec [Call (useDashboardStore.claimBenefit id2); SettleClaimBenefit 0 (Fulfilled true);
          Call (useDashboardStore.claimBenefit id1); SettleClaimBenefit 1 (Fulfilled true)]
         (start w) = Some l21 /\
    exec [Call (useDashboardStore.claimBenefit id1); Call (useDashboardStore.claimBenefit id2);
          SettleClaimBenefit 0 (Fulfilled true); SettleClaimBenefit 1 (Fulfilled true)]
         (start w) = Some lab /\
    exec [Call (useDashboardStore.claimBenefit id1); Call (useDashboardStore.claimBenefit id2);
          SettleClaimBenefit 1 (Fulfilled true); SettleClaimBenefit 0 (Fulfilled true)]
         (start w) = Some lba /\
    state (now l12) = state (now l21) /\
    state (now lab) = state (now l12) /\
    state (now lba) = state (now l12).
Proof.
  do 4 eexists. do 4 (split; [reflexivity|]). simpl. unfold merge. simpl.
  split; [|split]; f_equal; auto using map_mark_comm.
Qed.

(** X11. A [loadDashboardData()] that fulfils after a successful claim
    discards the claim: the store holds the received data as received, whether
    the load was called before the claim resolved or after it.  Against the
    reference gateway, which always returns the mock data, a benefit claimed
    before a reload is unclaimed after it. *)
Theorem load_after_claim_discards_claim (w : world) (benefitId : string)
    (data : DashboardData.t) :
  (exists l,
     exec [Call useDashboardStore.loadDashboardData;
           Call (useDashboardStore.claimBenefit benefitId);
           SettleClaimBenefit 1 (Fulfilled true);
           SettleGetDashboardData 0 (Fulfilled data)] (start w) = Some l /\
     benefits (state (now l)) = DashboardData.benefits data) /\
  (exists l,
     exec [Call (useDashboardStore.claimBenefit benefitId);
           SettleClaimBenefit 0 (Fulfilled true);
           Call useDashboardStore.loadDashboardData;
           SettleGetDashboardData 1 (Fulfilled data)] (start w) = Some l /\
     benefits (state (now l)) = DashboardData.benefits data) /\
  (exists l,
     exec [Call (useDashboardStore.claimBenefit benefitId);
           SettleClaimBenefit 0 (Fulfilled true);
           Call useDashboardStore.loadDashboardData;
           SettleGetDashboardData 1 dashboardApi.getDashboardData] (start w) = Some l /\
     state (now l) = loaded /\
     Forall (fun b => Benefit.id b <> "3" -> Benefit.claimed b = false)
            (benefits (state (now l)))).
Proof.
  split; [|split].
  - eexists. split; reflexivity.
  - eexists. split; reflexivity.
  - eexists. split; [reflexivity|]. split; [reflexivity|].
    simpl. repeat constructor; simpl; congruence.
Qed.

(** ** The avatar fallback *)

Section InitialsFacts.
Context {A : Type} `{EqDecision A}.
Variable space : A.

Lemma split_cons_ne (c : A) (s : list A) :
  c <> space ->
  exists piece pieces, split space s = piece :: pieces /\
                       split space (c :: s) = (c :: piece) :: pieces.
Proof.
  intros Hc. simpl. rewrite decide_False by done.
  destruct s as [|c' s']; simpl.
  - by exists [], [].
  - destruct (decide (c' = space)); [by eexists _, _|].
    destruct (split space s'); by eexists _, _.
Qed.

Lemma split_app_space (a b : list A) :
  split space (a ++ space :: b) = split space a ++ split space b.
Proof.
  induction a as [|c a IH].
  - simpl. by rewrite decide_True.
  - destruct (decide (c = space)) as [->|Hc].
    + simpl. rewrite !decide_True by done. by rewrite IH.
    + destruct (split_cons_ne c a Hc) as (piece & pieces & Ha & ->).
      change ((c :: a) ++ space :: b) with (c :: (a ++ space :: b)).
      destruct (split_cons_ne c (a ++ space :: b) Hc) as (piece' & pieces' & Hab & ->).
      rewrite IH, Ha in Hab. by injection Hab as <- <-.
Qed.

Lemma split_no_space (w : list A) : space ∉ w -> split space w = [w].
Proof.
  induction w as [|c w IH]; [done|].
  rewrite not_elem_of_cons. intros [Hc Hw]. simpl.
  rewrite decide_False by done. by rewrite IH.
Qed.

Lemma split_pieces_no_space (s : list A) :
  Forall (fun piece => space ∉ piece) (split space s).
Proof.
  induction s as [|c s IH]; simpl.
  - constructor; [apply not_elem_of_nil|constructor].
  - destruct (decide (c = space)) as [->|Hc].
    + constructor; [apply not_elem_of_nil|done].
    + destruct (split space s) as [|piece pieces].
      * constructor; [|done]. rewrite not_elem_of_cons. split; [done|apply not_elem_of_nil].
      * apply Forall_cons in IH as [Hpiece Hpieces]. constructor; [|done].
        rewrite not_elem_of_cons. by split.
Qed.

Lemma length_split (s : list A) :
  length (split space s) = S (length (filter (fun c => c = space) s)).
Proof.
  induction s as [|c s IH]; [done|].
  destruct (decide (c = space)) as [Hc|Hc].
  - rewrite filter_cons_True by done. simpl. rewrite decide_True by done.
    simpl. by rewrite IH.
  - rewrite filter_cons_False by done.
    destruct (split_cons_ne c s Hc) as (piece & pieces & Hs & ->).
    rewrite <- IH, Hs. done.
Qed.

(** X12. The initials of a name are made word by word: the initials of two
    texts joined by a space are the initials of the first followed by those of
    the second, and a text without a space gives its first code unit (nothing
    when it is empty, as for the empty words that leading, trailing or doubled
    spaces produce). *)
Theorem initials_word_by_word (a b : list A) :
  initials space (a ++ space :: b) = initials space a ++ initials space b /\
  (space ∉ a -> initials space a = take 1 a) /\
  initials space [] = [] /\
  initials space (space :: b) = initials space b /\
  initials space (a ++ [space]) = initials space a.
Proof.
  unfold initials. split; [|split; [|split; [|split]]].
  - by rewrite split_app_space, map_app, concat_app.
  - intros Ha. rewrite split_no_space by done. simpl. apply app_nil_r.
  - done.
  - simpl. by rewrite decide_True.
  - rewrite split_app_space, map_app, concat_app. simpl. by rewrite app_nil_r.
Qed.

(** X13. The initials never contain a space, and there are at most as many
    as the name has words: one more than it has spaces. *)
Theorem initials_bounded (name : list A) :
  (space ∉ initials space name) /\
  (length (initials space name) <= S (length (filter (fun c => c = space) name)))%nat.
Proof.
  unfold initials. rewrite <- length_split.
  pose proof (split_pieces_no_space name) as Hpieces.
  induction (split space name) as [|piece pieces IH]; [split; [apply not_elem_of_nil|done]|].
  apply Forall_cons in Hpieces as [Hpiece Hpieces].
  destruct (IH Hpieces) as [IH1 IH2]. simpl. split.
  - rewrite not_elem_of_app. split; [|done].
    unfold first_unit. intros Hin. apply Hpiece.
    destruct piece as [|c piece]; simpl in Hin; [done|].
    apply list_elem_of_singleton in Hin as ->. left.
  - rewrite length_app. unfold first_unit in *. rewrite length_take. lia.
Qed.

End InitialsFacts.

Lemma initials_word_by_word_witness :
  initials Ascii.Space (String.list_ascii_of_string "Arjun Mehta") = String.list_ascii_of_string "AM" /\
  initials Ascii.Space (String.list_ascii_of_string " Arjun  Mehta ") = String.list_ascii_of_string "AM".
Proof.
  destruct (initials_word_by_word Ascii.Space (String.list_ascii_of_string "Arjun")
              (String.list_ascii_of_string "Mehta")) as (Hjoin & Hword & _).
  split; [|reflexivity].
  change (String.list_ascii_of_string "Arjun Mehta")
    with (String.list_ascii_of_string "Arjun" ++ Ascii.Space :: String.list_ascii_of_string "Mehta").
  rewrite Hjoin, Hword; [reflexivity|].
  apply (bool_decide_unpack _). vm_compute. exact I.
Defined.

(** ** Two loads in flight *)

(** X14. With two [loadDashboardData()] calls in flight, the first to settle
    clears [isLoading] although the other is still awaited, and the store
    ends with the data of whichever settles last, not of the one called
    last. *)
Theorem overlapping_loads (w : world) (d0 d1 : DashboardData.t) :
  (exists l,
     exec [Call useDashboardStore.loadDashboardData; Call useDashboardStore.loadDashboardData;
           SettleGetDashboardData 0 (Fulfilled d0)] (start w) = Some l /\
     isLoading (state (now l)) = false /\
     benefits (state (now l)) = DashboardData.benefits d0 /\
     exists p, inflight l !! 1%nat = Some (Some p)) /\
  (exists l,
     exec [Call useDashboardStore.loadDashboardData; Call useDashboardStore.loadDashboardData;
           SettleGetDashboardData 0 (Fulfilled d0);
           SettleGetDashboardData 1 (Fulfilled d1)] (start w) = Some l /\
     state (now l) = merge (spread_with_isLoading d1 false) (state w) /\
     inflight l = [None; None]) /\
  (exists l,
     exec [Call useDashboardStore.loadDashboardData; Call useDashboardStore.loadDashboardData;
           SettleGetDashboardData 1 (Fulfilled d1);
           SettleGetDashboardData 0 (Fulfilled d0)] (start w) = Some l /\
     state (now l) = merge (spread_with_isLoading d0 false) (state w) /\
     inflight l = [None; None]).
Proof.
  split; [|split].
  - eexists. split; [reflexivity|]. split; [reflexivity|]. split; [reflexivity|].
    eexists. reflexivity.
  - eexists. split; [reflexivity|]. split; reflexivity.
  - eexists. split; [reflexivity|]. split; reflexivity.
Qed.
